(** * ProjectCollabSystem: the state bookkeeping of [src/App.tsx]

    The component [App] keeps its state in React hooks ([files],
    [activeFileId], [videoEnabled], [peers], [rightPanel]) and in two pieces
    of mutable data outside React: the [<video>] element behind
    [localVideoRef] and the content listeners that [handleEditorDidMount]
    registers on the editor widget.  Everything else (the replicated
    document, the peer transport, the editor and the terminal) is an opaque
    dependency and shows up here only as the events it delivers.

    The component is embedded as a transition function [step] from a state
    and an event to the next state and the effects the handler performs
    (download, console output, media request).  Each handler of the source
    is a definition of the same name. *)

From Stdlib Require Import List String Ascii Bool ZArith Lia DecimalString.
From Stdlib Require Import DecimalZ.
Import ListNotations.
Local Open Scope string_scope.
Local Open Scope list_scope.

(** ** Data model *)

(** [type Panel = 'preview' | 'terminal' | 'none'] *)
Inductive Panel : Type :=
| preview
| terminal
| none.

Definition Panel_eqb (a b : Panel) : bool :=
  match a, b with
  | preview, preview | terminal, terminal | none, none => true
  | _, _ => false
  end.

(** [interface File { id; name; language; content }], all four are strings. *)
Record File : Type := mkFile {
  id : string;
  name : string;
  language : string;
  content : string
}.

(** ** JavaScript string helpers used by [addNewFile] *)

Module Js.

(** [String.prototype.split] with a one-character separator: the pieces
    between the separators, always at least one piece. *)
Fixpoint split (sep : ascii) (s : string) : list string :=
  match s with
  | EmptyString => [EmptyString]
  | String c rest =>
      if Ascii.eqb c sep then EmptyString :: split sep rest
      else match split sep rest with
           | [] => [String c EmptyString]
           | piece :: pieces => String c piece :: pieces
           end
  end.

(** [Array.prototype.pop]: the last element, [undefined] on an empty
    array. *)
Fixpoint pop {A : Type} (l : list A) : option A :=
  match l with
  | [] => None
  | [x] => Some x
  | _ :: tl => pop tl
  end.

(** [toLowerCase] on one code unit.  Only the letters A-Z are mapped: a
    character outside ASCII never lowercases to one of the letters that
    occur in the extensions the switch of [addNewFile] tests. *)
Definition lower_ascii (c : ascii) : ascii :=
  let n := nat_of_ascii c in
  if (65 <=? n)%nat && (n <=? 90)%nat then ascii_of_nat (n + 32) else c.

Fixpoint toLowerCase (s : string) : string :=
  match s with
  | EmptyString => EmptyString
  | String c rest => String (lower_ascii c) (toLowerCase rest)
  end.

(** A string is falsy exactly when it is empty. *)
Definition truthy (s : string) : bool :=
  match s with
  | EmptyString => false
  | String _ _ => true
  end.

(** [Number.prototype.toString] on the integer that [Date.now] returns. *)
Definition toString (n : Z) : string :=
  NilEmpty.string_of_int (Z.to_int n).

End Js.

(** ** Component state *)

Record State : Type := mkState {
  files : list File;
  activeFileId : string;
  videoEnabled : bool;
  peers : list Z;
  rightPanel : Panel;
  (** the [<video>] element behind [localVideoRef], rendered only while
      [videoEnabled]; when present it holds its [srcObject] *)
  localVideo : option (option Z);
  (** one entry per callback registered with [onDidChangeModelContent]: the
      value of [activeFileId] the callback closed over *)
  listeners : list string
}.

(** The arguments of the [useState] calls at the top of [App]. *)
Definition initialFiles : list File :=
  [ mkFile "1" "index.html" "html" EmptyString;
    mkFile "2" "styles.css" "css" EmptyString;
    mkFile "3" "script.js" "javascript" EmptyString ].

Definition initialState : State :=
  {| files := initialFiles;
     activeFileId := "1";
     videoEnabled := false;
     peers := [];
     rightPanel := none;
     localVideo := None;
     listeners := [] |}.

(** [const activeFile = files.find(f => f.id === activeFileId)] *)
Definition findFile (fid : string) (fs : list File) : option File :=
  find (fun f => String.eqb (id f) fid) fs.

Definition activeFile (s : State) : option File :=
  findFile (activeFileId s) (files s).

(** The setters returned by [useState]; [setFiles] and [setRightPanel] are
    only ever called with an updater function. *)
Definition setFiles (upd : list File -> list File) (s : State) : State :=
  {| files := upd (files s);
     activeFileId := activeFileId s;
     videoEnabled := videoEnabled s;
     peers := peers s;
     rightPanel := rightPanel s;
     localVideo := localVideo s;
     listeners := listeners s |}.

Definition setActiveFileId (fid : string) (s : State) : State :=
  {| files := files s;
     activeFileId := fid;
     videoEnabled := videoEnabled s;
     peers := peers s;
     rightPanel := rightPanel s;
     localVideo := localVideo s;
     listeners := listeners s |}.

Definition setVideoEnabled (v : bool) (s : State) : State :=
  {| files := files s;
     activeFileId := activeFileId s;
     videoEnabled := v;
     peers := peers s;
     rightPanel := rightPanel s;
     localVideo := localVideo s;
     listeners := listeners s |}.

Definition setPeers (ps : list Z) (s : State) : State :=
  {| files := files s;
     activeFileId := activeFileId s;
     videoEnabled := videoEnabled s;
     peers := ps;
     rightPanel := rightPanel s;
     localVideo := localVideo s;
     listeners := listeners s |}.

Definition setRightPanel (upd : Panel -> Panel) (s : State) : State :=
  {| files := files s;
     activeFileId := activeFileId s;
     videoEnabled := videoEnabled s;
     peers := peers s;
     rightPanel := upd (rightPanel s);
     localVideo := localVideo s;
     listeners := listeners s |}.

(** Writes to the two pieces of state that live outside React. *)
Definition setLocalVideo (v : option (option Z)) (s : State) : State :=
  {| files := files s;
     activeFileId := activeFileId s;
     videoEnabled := videoEnabled s;
     peers := peers s;
     rightPanel := rightPanel s;
     localVideo := v;
     listeners := listeners s |}.

Definition addListener (captured : string) (s : State) : State :=
  {| files := files s;
     activeFileId := activeFileId s;
     videoEnabled := videoEnabled s;
     peers := peers s;
     rightPanel := rightPanel s;
     localVideo := localVideo s;
     listeners := listeners s ++ [captured] |}.

(** ** Effects a handler performs outside the component state *)

Inductive Effect : Type :=
| Download (fileName : string) (blob : string)
| ConsoleError (message : string) (err : string)
| GetUserMedia.

(** ** Handlers *)

(** The updater of [togglePanel]: [prev => prev === panel ? 'none' : panel] *)
Definition togglePanelUpdater (panel : Panel) (prev : Panel) : Panel :=
  if Panel_eqb prev panel then none else panel.

Definition togglePanel (panel : Panel) (s : State) : State :=
  setRightPanel (togglePanelUpdater panel) s.

(** [fileName.split('.').pop()?.toLowerCase() || ''] *)
Definition extensionOf (fileName : string) : string :=
  match Js.pop (Js.split "." fileName) with
  | None => EmptyString
  | Some piece =>
      let lowered := Js.toLowerCase piece in
      if Js.truthy lowered then lowered else EmptyString
  end.

(** The [switch (extension)] of [addNewFile], starting from ['plaintext']. *)
Definition languageOf (extension : string) : string :=
  if String.eqb extension "html" then "html"
  else if String.eqb extension "css" then "css"
  else if String.eqb extension "js" then "javascript"
  else if String.eqb extension "ts" then "typescript"
  else if String.eqb extension "json" then "json"
  else if String.eqb extension "md" then "markdown"
  else "plaintext".

(** The file [addNewFile] builds from the prompted name and [Date.now()]. *)
Definition newFile (fileName : string) (now : Z) : File :=
  {| id := Js.toString now;
     name := fileName;
     language := languageOf (extensionOf fileName);
     content := EmptyString |}.

(** [addNewFile]: [promptResult] is what [prompt] returned ([None] for a
    cancelled dialog), [now] is the value of [Date.now()]. *)
Definition addNewFile (promptResult : option string) (now : Z) (s : State)
  : State :=
  match promptResult with
  | None => s
  | Some fileName =>
      if negb (Js.truthy fileName) then s
      else
        let nf := newFile fileName now in
        setActiveFileId (id nf) (setFiles (fun prev => prev ++ [nf]) s)
  end.

(** [saveFile]: the state is only read; the download is the effect. *)
Definition saveFile (s : State) : State * list Effect :=
  match findFile (activeFileId s) (files s) with
  | None => (s, [])
  | Some file => (s, [Download (name file) (content file)])
  end.

(** [toggleVideo], followed by the render it causes: the [<video>] element
    is mounted or unmounted with the flag, and the video effect asks for the
    camera when the flag has become true. *)
Definition toggleVideo (s : State) : State * list Effect :=
  let enabled := negb (videoEnabled s) in
  let s' := setVideoEnabled enabled s in
  if enabled then (setLocalVideo (Some None) s', [GetUserMedia])
  else (setLocalVideo None s', []).

(** The [.then] branch of the media request:
    [if (localVideoRef.current) localVideoRef.current.srcObject = stream] *)
Definition mediaGranted (stream : Z) (s : State) : State :=
  match localVideo s with
  | None => s
  | Some _ => setLocalVideo (Some (Some stream)) s
  end.

(** The [.catch] branch of the media request. *)
Definition mediaDenied (err : string) (s : State) : State * list Effect :=
  (s, [ConsoleError "Error accessing media devices:" err]).

(** [updatePeers]: [setPeers(new Set(provider.awareness.getStates().keys()))] *)
Definition updatePeers (keys : list Z) (s : State) : State :=
  setPeers keys s.

(** The file-list button of the file at position [n]:
    [onClick={() => setActiveFileId(file.id)}].  The buttons are rendered
    from [files], so a position past the end has no button. *)
Definition selectFile (n : nat) (s : State) : State :=
  match nth_error (files s) n with
  | None => s
  | Some file => setActiveFileId (id file) s
  end.

(** [handleEditorDidMount]: the callback handed to [onDidChangeModelContent]
    is created in this call and closes over the [activeFileId] of the render
    the handler belongs to.  The callback is never unregistered. *)
Definition handleEditorDidMount (s : State) : State :=
  addListener (activeFileId s) s.

(** The body of one registered callback, [captured] being its
    [activeFileId] and [value] the result of [editor.getValue()]:
    [setFiles(prev => prev.map(f => f.id === activeFileId ? {...f, content} : f))] *)
Definition withContent (value : string) (f : File) : File :=
  {| id := id f; name := name f; language := language f; content := value |}.

Definition contentUpdater (captured value : string) (prev : list File)
  : list File :=
  map (fun f => if String.eqb (id f) captured then withContent value f else f)
      prev.

Definition onContentChange (captured value : string) (s : State) : State :=
  setFiles (contentUpdater captured value) s.

(** A content change of the editor model runs every registered callback. *)
Definition editorChange (value : string) (s : State) : State :=
  fold_left (fun acc captured => onContentChange captured value acc)
            (listeners s) s.

(** ** Events and the transition function *)

Inductive Event : Type :=
| ClickNewFile (promptResult : option string) (now : Z)
| ClickSaveFile
| ClickTogglePanel (panel : Panel)
| ClickToggleVideo
| ClickFile (position : nat)
| EditorMount
| EditorChange (value : string)
| AwarenessChange (keys : list Z)
| MediaGranted (stream : Z)
| MediaDenied (err : string).

Definition step (s : State) (e : Event) : State * list Effect :=
  match e with
  | ClickNewFile promptResult now => (addNewFile promptResult now s, [])
  | ClickSaveFile => saveFile s
  | ClickTogglePanel panel => (togglePanel panel s, [])
  | ClickToggleVideo => toggleVideo s
  | ClickFile n => (selectFile n s, [])
  | EditorMount => (handleEditorDidMount s, [])
  | EditorChange value => (editorChange value s, [])
  | AwarenessChange keys => (updatePeers keys s, [])
  | MediaGranted stream => (mediaGranted stream s, [])
  | MediaDenied err => mediaDenied err s
  end.

(** The state after a sequence of events, and the effects along the way. *)
Fixpoint run (s : State) (events : list Event) : State * list Effect :=
  match events with
  | [] => (s, [])
  | e :: rest =>
      let '(s1, out1) := step s e in
      let '(s2, out2) := run s1 rest in
      (s2, out1 ++ out2)
  end.

Definition stateAfter (events : list Event) : State :=
  fst (run initialState events).

(** ** Vocabulary of the properties *)

(** "The text after the last dot" of a file name; [None] when the name has
    no dot. *)
Fixpoint afterLastDot (s : string) : option string :=
  match s with
  | EmptyString => None
  | String c rest =>
      match afterLastDot rest with
      | Some e => Some e
      | None => if Ascii.eqb c "." then Some rest else None
      end
  end.

(** The language tag a file name should get when the tag is read off the
    extension: the lowercased text after the last dot goes through the
    table, a name without a dot is plain text. *)
Definition languageByExtension (fileName : string) : string :=
  match afterLastDot fileName with
  | Some e => languageOf (Js.toLowerCase e)
  | None => "plaintext"
  end.

(** What identifies a file across content edits. *)
Definition identityOf (f : File) : string * string * string :=
  (id f, name f, language f).

(** What a list of registered callbacks does to one file on a content
    change: the content is replaced when some callback closed over its id. *)
Definition afterChange (captured : list string) (value : string) (f : File)
  : File :=
  if existsb (String.eqb (id f)) captured then withContent value f else f.

Definition isEditorChange (e : Event) : bool :=
  match e with
  | EditorChange _ => true
  | _ => false
  end.

Definition isMediaRequest (e : Effect) : bool :=
  match e with
  | GetUserMedia => true
  | _ => false
  end.

(** The invariant behind the non-null assertion on [activeFile]. *)
Definition activeIdPresent (s : State) : Prop :=
  In (activeFileId s) (map id (files s)).

(** ** Code around the handlers *)

(** [const ROOM_ID = 'collaborative-editor-demo'] *)
Definition ROOM_ID : string := "collaborative-editor-demo".

(** The room the transport provider is created for:
    [`${ROOM_ID}-${Date.now()}`] *)
Definition roomName (now : Z) : string :=
  (ROOM_ID ++ "-" ++ Js.toString now)%string.

(** [String.prototype.endsWith]: some tail of [s] is [suffix]. *)
Fixpoint endsWith (suffix s : string) : bool :=
  String.eqb s suffix ||
  match s with
  | EmptyString => false
  | String _ rest => endsWith suffix rest
  end.

(** [files.find(f => f.name.endsWith(suffix))?.content || ''] *)
Definition previewSource (suffix : string) (fs : list File) : string :=
  match find (fun f => endsWith suffix (name f)) fs with
  | None => EmptyString
  | Some f => if Js.truthy (content f) then content f else EmptyString
  end.

Definition newline : string := String "010" EmptyString.

(** The template literal handed to [doc.write] in the preview effect. *)
Definition previewDocument (cssFile htmlFile jsFile : string) : string :=
  (newline ++
  "          <!DOCTYPE html>" ++ newline ++
  "          <html>" ++ newline ++
  "            <head>" ++ newline ++
  "              <style>" ++ cssFile ++ "</style>" ++ newline ++
  "            </head>" ++ newline ++
  "            <body>" ++ newline ++
  "              " ++ htmlFile ++ newline ++
  "              <script>" ++ jsFile ++ "</script>" ++ newline ++
  "            </body>" ++ newline ++
  "          </html>" ++ newline ++
  "        ")%string.

(** The preview effect, run after a render of state [s]: the [<iframe>] is
    rendered exactly while the panel is [preview]; [contentDocument] tells
    whether the frame gave access to its document.  The result is the text
    written into the frame, if any. *)
Definition updatePreview (contentDocument : bool) (s : State)
  : option string :=
  if Panel_eqb (rightPanel s) preview && contentDocument then
    let htmlFile := previewSource ".html" (files s) in
    let cssFile := previewSource ".css" (files s) in
    let jsFile := previewSource ".js" (files s) in
    Some (previewDocument cssFile htmlFile jsFile)
  else None.

(** *** The terminal *)

(** [terminal.write('Welcome to the collaborative terminal!\r\n$ ')] *)
Definition welcome : string :=
  ("Welcome to the collaborative terminal!" ++
   String "013" (String "010" "$ "))%string.

(** The component together with the text written to the terminal widget;
    [None] while no terminal exists. *)
Record Screen : Type := mkScreen {
  app : State;
  terminalOutput : option string
}.

(** The terminal effect has [rightPanel] as its only dependency.  When the
    panel changed, the cleanup of the previous run disposes the terminal
    that run created, and the body creates a terminal and writes the
    greeting if the panel is now [terminal] (its container is rendered
    exactly then). *)
Definition terminalEffect (before after : Panel) (t : option string)
  : option string :=
  if Panel_eqb before after then t
  else
    let disposed := if Panel_eqb before terminal then None else t in
    if Panel_eqb after terminal then Some welcome else disposed.

(** [terminal.onData(data => { terminal.write(data); })] *)
Definition onData (data : string) (t : option string) : option string :=
  match t with
  | None => None
  | Some written => Some (written ++ data)%string
  end.

Inductive ScreenEvent : Type :=
| AppEvent (e : Event)
| TerminalData (data : string).

Definition screenStep (sc : Screen) (e : ScreenEvent) : Screen :=
  match e with
  | AppEvent e =>
      let s' := fst (step (app sc) e) in
      {| app := s';
         terminalOutput :=
           terminalEffect (rightPanel (app sc)) (rightPanel s')
                          (terminalOutput sc) |}
  | TerminalData data =>
      {| app := app sc; terminalOutput := onData data (terminalOutput sc) |}
  end.

Definition screenRun (sc : Screen) (events : list ScreenEvent) : Screen :=
  fold_left screenStep events sc.

Definition initialScreen : Screen :=
  {| app := initialState; terminalOutput := None |}.

(** *** [debounce] *)

Module Debounce.
Section Debounce.

(** The argument list of the debounced function, and [wait]. *)
Variable A : Type.
Variable wait : Z.

(** The timer behind the variable [timeout], while it is pending: the time
    it is due and the arguments its callback closed over. *)
Record Timer : Type := mkTimer {
  due : Z;
  args : A
}.

(** A call of the returned function at time [now]:
    [clearTimeout(timeout); timeout = setTimeout(() => func(...args), wait)] *)
Definition call (now : Z) (a : A) (pending : option Timer) : option Timer :=
  Some {| due := now + wait; args := a |}.

(** The event loop running timers at time [now]: a pending timer that is
    due runs its callback, which calls [func] with the captured arguments. *)
Definition tick (now : Z) (pending : option Timer)
  : option Timer * list (Z * A) :=
  match pending with
  | None => (None, [])
  | Some t =>
      if (due t <=? now)%Z then (None, [(now, args t)]) else (Some t, [])
  end.

Inductive Ev : Type :=
| Call (now : Z) (a : A)
| Tick (now : Z).

(** The calls of [func], each with the time it happened. *)
Fixpoint run (pending : option Timer) (events : list Ev)
  : option Timer * list (Z * A) :=
  match events with
  | [] => (pending, [])
  | Call now a :: rest => run (call now a pending) rest
  | Tick now :: rest =>
      let '(p1, out1) := tick now pending in
      let '(p2, out2) := run p1 rest in
      (p2, out1 ++ out2)
  end.

Definition isCall (e : Ev) : bool :=
  match e with
  | Call _ _ => true
  | Tick _ => false
  end.

End Debounce.
End Debounce.

(** ** More vocabulary *)

(** The files an event creates, and the files a sequence of events
    creates, in order. *)
Definition createdBy (e : Event) : list File :=
  match e with
  | ClickNewFile (Some fileName) now =>
      if Js.truthy fileName then [newFile fileName now] else []
  | _ => []
  end.

Definition created (events : list Event) : list File :=
  flat_map createdBy events.

(** The values of [Date.now()] at the creations. *)
Definition creationTimes (events : list Event) : list Z :=
  flat_map (fun e =>
              match e with
              | ClickNewFile (Some fileName) now =>
                  if Js.truthy fileName then [now] else []
              | _ => []
              end) events.

(** The text typed into the terminal during a sequence of events. *)
Fixpoint typed (events : list ScreenEvent) : string :=
  match events with
  | [] => EmptyString
  | TerminalData data :: rest => (data ++ typed rest)%string
  | AppEvent _ :: rest => typed rest
  end.

Definition isPanelToggle (e : ScreenEvent) : bool :=
  match e with
  | AppEvent (ClickTogglePanel _) => true
  | _ => false
  end.

(** Whether the [<video>] element is mounted. *)
Definition hasVideoElement (s : State) : bool :=
  match localVideo s with
  | Some _ => true
  | None => false
  end.

Definition isDownload (e : Effect) : bool :=
  match e with
  | Download _ _ => true
  | _ => false
  end.

(** Case analysis over the handlers, down to the branch each one takes. *)
Ltac handler_cases s e :=
  destruct e as [[fileName|] now| |panel| |n| |value|keys|stream|err];
  cbn [step fst snd];
  unfold addNewFile, saveFile, toggleVideo, selectFile, mediaGranted,
         mediaDenied, togglePanel, handleEditorDidMount, updatePeers;
  repeat match goal with
         | |- context [if negb (Js.truthy ?x) then _ else _] =>
             destruct (Js.truthy x)
         | |- context [match findFile ?i ?fs with _ => _ end] =>
             destruct (findFile i fs)
         | |- context [if negb (videoEnabled s) then _ else _] =>
             destruct (videoEnabled s) eqn:?
         | |- context [match nth_error ?fs ?k with _ => _ end] =>
             destruct (nth_error fs k)
         | |- context [match localVideo s with _ => _ end] =>
             destruct (localVideo s) eqn:?
         end;
  cbn.

(** * Properties *)

(** ** The file-name extension *)

Lemma split_not_nil sep s : Js.split sep s <> [].
Proof.
  destruct s as [|c rest]; simpl; [discriminate|].
  destruct (Ascii.eqb c sep); [discriminate|].
  destruct (Js.split sep rest); discriminate.
Qed.

Lemma pop_cons {A} (x : A) l : l <> [] -> Js.pop (x :: l) = Js.pop l.
Proof. destruct l; [congruence | reflexivity]. Qed.

Lemma split_dot_shape s :
  match afterLastDot s with
  | None => Js.split "." s = [s]
  | Some e =>
      exists first more,
        Js.split "." s = first :: more /\ more <> [] /\ Js.pop more = Some e
  end.
Proof.
  induction s as [|c rest IH]; simpl; [reflexivity|].
  destruct (afterLastDot rest) as [e|].
  - destruct IH as (first & more & Hsplit & Hmore & Hpop).
    rewrite Hsplit.
    destruct (Ascii.eqb c ".").
    + exists EmptyString, (first :: more).
      repeat split; [discriminate|].
      rewrite pop_cons; assumption.
    + exists (String c first), more. repeat split; assumption.
  - rewrite IH.
    destruct (Ascii.eqb c ".").
    + exists EmptyString, [rest]. repeat split. discriminate.
    + reflexivity.
Qed.

(** [split('.').pop()] is the text after the last dot, and the whole name
    when there is no dot. *)
Lemma pop_split_dot s :
  Js.pop (Js.split "." s) =
  Some (match afterLastDot s with Some e => e | None => s end).
Proof.
  pose proof (split_dot_shape s) as H.
  destruct (afterLastDot s) as [e|].
  - destruct H as (first & more & -> & Hmore & Hpop).
    rewrite pop_cons; assumption.
  - rewrite H. reflexivity.
Qed.

Lemma extensionOf_spec s :
  extensionOf s =
  Js.toLowerCase (match afterLastDot s with Some e => e | None => s end).
Proof.
  unfold extensionOf. rewrite pop_split_dot. cbv zeta.
  destruct (Js.toLowerCase _); reflexivity.
Qed.

(** For a name that has a dot the tag is the one the extension table
    gives. *)
Lemma language_of_dotted_name fileName now e :
  afterLastDot fileName = Some e ->
  language (newFile fileName now) = languageByExtension fileName.
Proof.
  intros He. unfold languageByExtension. simpl.
  rewrite extensionOf_spec, He. reflexivity.
Qed.

(** The table itself. *)
Lemma languageOf_table :
  languageOf "html" = "html" /\ languageOf "css" = "css" /\
  languageOf "js" = "javascript" /\ languageOf "ts" = "typescript" /\
  languageOf "json" = "json" /\ languageOf "md" = "markdown".
Proof. repeat split. Qed.

Lemma languageOf_other e :
  e <> "html" -> e <> "css" -> e <> "js" -> e <> "ts" -> e <> "json" ->
  e <> "md" -> languageOf e = "plaintext".
Proof.
  intros H1 H2 H3 H4 H5 H6. unfold languageOf.
  repeat match goal with
         | H : e <> ?x |- _ => apply String.eqb_neq in H; rewrite H; clear H
         end.
  reflexivity.
Qed.

(** C2: the language tag of a created file is the extension table applied
    to the lowercased text after the last dot, and a name with no dot is
    plain text.  The code departs from this on a name without a dot that
    spells an extension: asked for the name [js] at time [now], the new-file
    action appends a file tagged [javascript], where the extension rule
    gives [plaintext]. *)
Theorem addNewFile_name_without_dot (now : Z) :
  afterLastDot "js" = None /\
  languageByExtension "js" = "plaintext" /\
  files (fst (step initialState (ClickNewFile (Some "js") now))) =
    initialFiles ++ [mkFile (Js.toString now) "js" "javascript" EmptyString].
Proof. repeat split. Qed.

(** ** Panel visibility *)

Lemma Panel_eqb_spec a b : reflect (a = b) (Panel_eqb a b).
Proof. destruct a, b; constructor; congruence. Qed.

Lemma togglePanel_frame panel s :
  files (togglePanel panel s) = files s /\
  activeFileId (togglePanel panel s) = activeFileId s /\
  videoEnabled (togglePanel panel s) = videoEnabled s /\
  peers (togglePanel panel s) = peers s.
Proof. repeat split. Qed.

(** C1, as the code has it: two terminal toggles in a row end with no panel
    shown when they start from [preview] or from [none]; started while the
    terminal is shown they end with the terminal shown again. *)
Theorem terminal_toggle_twice (s : State) :
  rightPanel (togglePanel terminal (togglePanel terminal s)) =
  match rightPanel s with
  | terminal => terminal
  | preview | none => none
  end.
Proof. simpl. destruct (rightPanel s); reflexivity. Qed.

(** C1, as stated, fails when the terminal is the panel shown: open the
    terminal from the start state, then toggle it twice. *)
Lemma terminal_toggle_twice_from_terminal :
  rightPanel (stateAfter [ClickTogglePanel terminal]) = terminal /\
  rightPanel (fst (run (stateAfter [ClickTogglePanel terminal])
                       [ClickTogglePanel terminal; ClickTogglePanel terminal]))
    <> none.
Proof. split; [reflexivity | discriminate]. Qed.

(** C5: the panel state is one of [preview], [terminal], [none] before and
    after a toggle; toggling the panel that is shown gives [none], toggling
    a panel that is not shown gives that panel. *)
Theorem togglePanel_cases (panel : Panel) (s : State) :
  (rightPanel s = panel -> rightPanel (togglePanel panel s) = none) /\
  (rightPanel s <> panel -> rightPanel (togglePanel panel s) = panel) /\
  (rightPanel (togglePanel panel s) = preview \/
   rightPanel (togglePanel panel s) = terminal \/
   rightPanel (togglePanel panel s) = none).
Proof.
  simpl. unfold togglePanelUpdater.
  destruct (Panel_eqb_spec (rightPanel s) panel) as [Heq|Hne].
  - repeat split; auto. intros H. contradiction.
  - repeat split; try (intros H; congruence).
    destruct panel; auto.
Qed.

Lemma togglePanel_cases_witness :
  rightPanel (togglePanel terminal initialState) = terminal /\
  rightPanel (togglePanel terminal (togglePanel terminal initialState)) = none.
Proof.
  split.
  - apply (proj1 (proj2 (togglePanel_cases terminal initialState))).
    simpl. discriminate.
  - apply (proj1 (togglePanel_cases terminal (togglePanel terminal initialState))).
    reflexivity.
Defined.

(** ** Startup *)

(** C3: the start state lists exactly the three default files, with empty
    content, and the active file is the first of them. *)
Theorem startup_defaults :
  files initialState =
    [ mkFile "1" "index.html" "html" EmptyString;
      mkFile "2" "styles.css" "css" EmptyString;
      mkFile "3" "script.js" "javascript" EmptyString ] /\
  List.length (files initialState) = 3%nat /\
  activeFile initialState = nth_error (files initialState) 0 /\
  activeFile initialState = Some (mkFile "1" "index.html" "html" EmptyString).
Proof. repeat split. Qed.

(** ** Creating a file *)

(** C9: a cancelled prompt and an empty answer both leave the whole state as
    it was, and produce no effect. *)
Theorem addNewFile_without_name (now : Z) (s : State) :
  step s (ClickNewFile None now) = (s, []) /\
  step s (ClickNewFile (Some EmptyString) now) = (s, []).
Proof. split; reflexivity. Qed.

Lemma addNewFile_with_name fileName now s :
  Js.truthy fileName = true ->
  files (addNewFile (Some fileName) now s) = files s ++ [newFile fileName now] /\
  activeFileId (addNewFile (Some fileName) now s) = Js.toString now.
Proof. intros H. unfold addNewFile. rewrite H. split; reflexivity. Qed.

(** ** Media access *)

(** C6: a rejected media request is logged to the console and nothing else
    happens: the state (flag, file list, panel and the rest) is the same, and
    the only effect is the console line, so no new request is made. *)
Theorem media_denied_changes_nothing (err : string) (s : State) :
  fst (step s (MediaDenied err)) = s /\
  snd (step s (MediaDenied err)) =
    [ConsoleError "Error accessing media devices:" err] /\
  existsb isMediaRequest (snd (step s (MediaDenied err))) = false /\
  videoEnabled (fst (step s (MediaDenied err))) = videoEnabled s /\
  files (fst (step s (MediaDenied err))) = files s /\
  rightPanel (fst (step s (MediaDenied err))) = rightPanel s.
Proof. repeat split. Qed.

(** ** Saving *)

Lemma findFile_some fid fs f :
  findFile fid fs = Some f -> In f fs /\ id f = fid.
Proof.
  unfold findFile. intros H. apply find_some in H.
  destruct H as [Hin Heq]. apply String.eqb_eq in Heq. auto.
Qed.

Lemma findFile_none fid fs :
  findFile fid fs = None -> forall f, In f fs -> id f <> fid.
Proof.
  unfold findFile. intros H f Hin.
  apply String.eqb_neq. exact (find_none _ _ H f Hin).
Qed.

Lemma findFile_present fid fs :
  In fid (map id fs) -> exists f, findFile fid fs = Some f.
Proof.
  intros Hin. destruct (findFile fid fs) as [f|] eqn:E; [eauto|].
  apply in_map_iff in Hin. destruct Hin as (f & Hid & Hf).
  exfalso. exact (findFile_none _ _ E f Hf Hid).
Qed.

(** With distinct ids, the file found is the only one with that id. *)
Lemma NoDup_ids_unique fs f g :
  NoDup (map id fs) -> In f fs -> In g fs -> id f = id g -> f = g.
Proof.
  induction fs as [|h t IH]; simpl; [tauto|].
  intros Hnd Hf Hg Hid. inversion Hnd as [|? ? Hnotin Hnd']; subst.
  destruct Hf as [->|Hf], Hg as [->|Hg]; auto.
  - exfalso. apply Hnotin. rewrite Hid. now apply in_map.
  - exfalso. apply Hnotin. rewrite <- Hid. now apply in_map.
Qed.

(** C7: saving downloads the active file and changes nothing.  When some
    file carries the active id, the download has the name and content of a
    listed file with that id (the first one; the very file when ids are
    distinct); when none does, nothing is downloaded. *)
Theorem saveFile_downloads_active (s : State) :
  fst (step s ClickSaveFile) = s /\
  (forall f, In f (files s) -> id f = activeFileId s ->
     exists g, In g (files s) /\ id g = activeFileId s /\
       activeFile s = Some g /\
       snd (step s ClickSaveFile) = [Download (name g) (content g)] /\
       (NoDup (map id (files s)) -> g = f)) /\
  ((forall f, In f (files s) -> id f <> activeFileId s) ->
     snd (step s ClickSaveFile) = []).
Proof.
  simpl. unfold saveFile, activeFile.
  destruct (findFile (activeFileId s) (files s)) as [g|] eqn:E.
  - apply findFile_some in E as [Hin Hid].
    split; [reflexivity|]. split.
    + intros f Hf Hfid. exists g. repeat split; auto.
      intros Hnd. apply (NoDup_ids_unique (files s)); congruence.
    + intros Hnone. exfalso. exact (Hnone g Hin Hid).
  - split; [reflexivity|]. split.
    + intros f Hf Hfid. exfalso. exact (findFile_none _ _ E f Hf Hfid).
    + reflexivity.
Qed.

Lemma saveFile_downloads_active_witness :
  snd (step initialState ClickSaveFile) = [Download "index.html" EmptyString] /\
  snd (step (setActiveFileId "9" initialState) ClickSaveFile) = [].
Proof.
  split.
  - destruct (proj1 (proj2 (saveFile_downloads_active initialState))
                (mkFile "1" "index.html" "html" EmptyString)
                (or_introl eq_refl) eq_refl)
      as (g & _ & _ & _ & Hdownload & Hsame).
    rewrite Hdownload, Hsame; [reflexivity|].
    simpl. repeat constructor; simpl; intuition discriminate.
  - apply (proj2 (proj2 (saveFile_downloads_active
                           (setActiveFileId "9" initialState)))).
    simpl. intros f [<-|[<-|[<-|[]]]]; discriminate.
Defined.

(** ** Editor content changes *)

Lemma afterChange_identity captured value f :
  identityOf (afterChange captured value f) = identityOf f.
Proof. unfold afterChange. destruct (existsb _ _); reflexivity. Qed.

Lemma fold_onContentChange captured value s :
  fold_left (fun acc c => onContentChange c value acc) captured s =
  setFiles (map (afterChange captured value)) s.
Proof.
  revert s. induction captured as [|c rest IH]; intros s; simpl.
  - destruct s as [fs a v p r l ls]. unfold setFiles. simpl. f_equal.
    rewrite <- (map_id fs) at 1. apply map_ext. reflexivity.
  - rewrite IH. unfold onContentChange, setFiles, contentUpdater. simpl.
    f_equal. rewrite map_map. apply map_ext. intros f.
    unfold afterChange. simpl.
    destruct (String.eqb (id f) c) eqn:E; simpl; [|reflexivity].
    destruct (existsb _ rest); reflexivity.
Qed.

(** A content change rewrites the content of exactly the files whose id
    some registered callback closed over. *)
Lemma editorChange_files value s :
  editorChange value s =
  setFiles (map (afterChange (listeners s) value)) s.
Proof. apply fold_onContentChange. Qed.

Lemma editorChange_identities value s :
  map identityOf (files (editorChange value s)) = map identityOf (files s).
Proof.
  rewrite editorChange_files. simpl. rewrite map_map.
  apply map_ext. intros f. apply afterChange_identity.
Qed.

Lemma identityOf_id fs gs :
  map identityOf fs = map identityOf gs -> map id fs = map id gs.
Proof.
  intros H.
  assert (E : forall l, map id l = map (fun t => fst (fst t)) (map identityOf l))
    by (intros l; rewrite map_map; reflexivity).
  rewrite !E, H. reflexivity.
Qed.

(** When the only callback closed over the id that is active now, a change
    touches the content of the active file and nothing else. *)
Lemma editorChange_fresh_mount value s f :
  listeners s = [activeFileId s] ->
  In f (files s) ->
  exists f', In f' (files (editorChange value s)) /\
    identityOf f' = identityOf f /\
    content f' = (if String.eqb (id f) (activeFileId s) then value
                  else content f).
Proof.
  intros Hl Hin. rewrite editorChange_files, Hl. simpl.
  exists (afterChange [activeFileId s] value f).
  split; [apply in_map; assumption|].
  split; [apply afterChange_identity|].
  unfold afterChange. simpl.
  destruct (String.eqb (id f) (activeFileId s)); reflexivity.
Qed.

(** C10: a content change rewrites the content of the file with the current
    active id and of no other file.  The code departs from this once the
    active file has changed after the editor mounted: the callback still
    holds the id that was active at mount.  Mount the editor, pick the
    second file, type [x]: the first file gets the text, the active one
    does not. *)
Theorem editor_change_after_file_switch :
  activeFileId (stateAfter [EditorMount; ClickFile 1]) = "2" /\
  listeners (stateAfter [EditorMount; ClickFile 1]) = ["1"] /\
  files (fst (step (stateAfter [EditorMount; ClickFile 1]) (EditorChange "x"))) =
    [ mkFile "1" "index.html" "html" "x";
      mkFile "2" "styles.css" "css" EmptyString;
      mkFile "3" "script.js" "javascript" EmptyString ].
Proof. repeat split. Qed.

(** ** The file list only grows *)

Lemma saveFile_state s : fst (saveFile s) = s.
Proof. unfold saveFile. destruct (findFile _ _); reflexivity. Qed.

Lemma toggleVideo_frame s :
  files (fst (toggleVideo s)) = files s /\
  activeFileId (fst (toggleVideo s)) = activeFileId s.
Proof. unfold toggleVideo. destruct (negb (videoEnabled s)); split; reflexivity. Qed.

Lemma mediaGranted_frame stream s :
  files (mediaGranted stream s) = files s /\
  activeFileId (mediaGranted stream s) = activeFileId s.
Proof. unfold mediaGranted. destruct (localVideo s); split; reflexivity. Qed.

Lemma selectFile_files n s : files (selectFile n s) = files s.
Proof. unfold selectFile. destruct (nth_error _ _); reflexivity. Qed.

(** Every event other than a content change keeps the list as a prefix. *)
Lemma step_files_prefix s e :
  isEditorChange e = false ->
  exists extra, files (fst (step s e)) = files s ++ extra.
Proof.
  destruct e as [p now| |panel| |n| |value|keys|stream|err]; simpl; intros He;
    try discriminate;
    try (exists []; rewrite app_nil_r; reflexivity).
  - destruct p as [fileName|]; [|exists []; rewrite app_nil_r; reflexivity].
    unfold addNewFile. destruct (Js.truthy fileName); simpl.
    + eexists; reflexivity.
    + exists []; rewrite app_nil_r; reflexivity.
  - exists []. rewrite saveFile_state, app_nil_r. reflexivity.
  - exists []. rewrite (proj1 (toggleVideo_frame s)), app_nil_r. reflexivity.
  - exists []. rewrite selectFile_files, app_nil_r. reflexivity.
  - exists []. rewrite (proj1 (mediaGranted_frame stream s)), app_nil_r.
    reflexivity.
Qed.

(** In general the old list, edited in place, is a prefix of the new one. *)
Lemma step_files_shape s e :
  exists g extra,
    files (fst (step s e)) = map g (files s) ++ extra /\
    (forall f, identityOf (g f) = identityOf f) /\
    (isEditorChange e = false -> forall f, g f = f).
Proof.
  destruct (isEditorChange e) eqn:He.
  - destruct e; try discriminate. simpl.
    exists (afterChange (listeners s) value), [].
    rewrite editorChange_files, app_nil_r. simpl.
    repeat split; [apply afterChange_identity | discriminate].
  - destruct (step_files_prefix s e He) as [extra Hextra].
    exists (fun f => f), extra. rewrite map_id. auto.
Qed.

(** C4: no event removes a file.  After any event the list is at least as
    long, its first entries are the old files in the old order with the same
    id, name and language, and every old file is still listed (the very same
    record unless the event was a content change, which may have replaced
    its content). *)
Theorem files_never_removed (s : State) (e : Event) :
  (List.length (files s) <= List.length (files (fst (step s e))))%nat /\
  map identityOf (firstn (List.length (files s)) (files (fst (step s e)))) =
    map identityOf (files s) /\
  (forall f, In f (files s) ->
     exists f', In f' (files (fst (step s e))) /\
       identityOf f' = identityOf f /\
       (isEditorChange e = false -> f' = f)).
Proof.
  destruct (step_files_shape s e) as (g & extra & Hfiles & Hident & Hsame).
  rewrite Hfiles. split; [|split].
  - rewrite length_app, length_map. lia.
  - rewrite <- (length_map g (files s)), firstn_app, Nat.sub_diag, firstn_all.
    simpl. rewrite app_nil_r, map_map. apply map_ext. exact Hident.
  - intros f Hin. exists (g f). split; [|split].
    + apply in_or_app. left. apply in_map. exact Hin.
    + apply Hident.
    + intros He. apply Hsame. exact He.
Qed.

Lemma files_never_removed_witness :
  exists f',
    In f' (files (fst (step initialState (ClickNewFile (Some "notes.md") 7)))) /\
    f' = mkFile "2" "styles.css" "css" EmptyString.
Proof.
  destruct (proj2 (proj2 (files_never_removed initialState
                            (ClickNewFile (Some "notes.md") 7)))
              (mkFile "2" "styles.css" "css" EmptyString)
              (or_intror (or_introl eq_refl)))
    as (f' & Hin & _ & Hsame).
  exists f'. split; [exact Hin | apply Hsame; reflexivity].
Defined.

(** ** The active file *)

Lemma step_keeps_active_id s e :
  activeIdPresent s -> activeIdPresent (fst (step s e)).
Proof.
  unfold activeIdPresent.
  destruct e as [p now| |panel| |n| |value|keys|stream|err]; simpl; intros H;
    try assumption.
  - destruct p as [fileName|]; [|assumption].
    unfold addNewFile. destruct (Js.truthy fileName); simpl; [|assumption].
    rewrite map_app. apply in_or_app. right. left. reflexivity.
  - rewrite saveFile_state. assumption.
  - destruct (toggleVideo_frame s) as [-> ->]. assumption.
  - unfold selectFile. destruct (nth_error (files s) n) as [file|] eqn:E;
      [|assumption].
    simpl. apply in_map. exact (nth_error_In _ _ E).
  - rewrite (identityOf_id _ _ (editorChange_identities value s)).
    rewrite editorChange_files. assumption.
  - destruct (mediaGranted_frame stream s) as [-> ->]. assumption.
Qed.

Lemma run_keeps_active_id events :
  forall s, activeIdPresent s -> activeIdPresent (fst (run s events)).
Proof.
  induction events as [|e rest IH]; intros s H; simpl; [assumption|].
  pose proof (step_keeps_active_id s e H) as H1.
  destruct (step s e) as [s1 out1]. simpl in H1.
  specialize (IH s1 H1).
  destruct (run s1 rest) as [s2 out2]. exact IH.
Qed.

(** C8: after any sequence of events from the start state the active id is
    the id of a listed file, so the lookup behind [activeFile] finds a
    file. *)
Theorem active_file_always_present (events : list Event) :
  exists f,
    activeFile (stateAfter events) = Some f /\
    In f (files (stateAfter events)) /\
    id f = activeFileId (stateAfter events).
Proof.
  assert (H : activeIdPresent (stateAfter events)).
  { apply run_keeps_active_id. left. reflexivity. }
  destruct (findFile_present _ _ H) as [f Hf].
  exists f. split; [exact Hf|]. apply findFile_some. exact Hf.
Qed.


(** * Further properties of the code *)

(** ** Ids and room names *)

Lemma toString_injective a b : Js.toString a = Js.toString b -> a = b.
Proof.
  unfold Js.toString. intros H.
  assert (E : Some (Z.to_int a) = Some (Z.to_int b))
    by (rewrite <- !NilEmpty.isi, H; reflexivity).
  injection E as E. apply (f_equal Z.of_int) in E.
  rewrite !DecimalZ.of_to in E. exact E.
Qed.

Lemma append_cancel_l (p x y : string) :
  (p ++ x)%string = (p ++ y)%string -> x = y.
Proof.
  induction p as [|c p IH]; simpl; intros H; [exact H|].
  injection H as H. auto.
Qed.

(** X4: Providers created at different times are created for different rooms:
    the room name carries [Date.now()] in decimal. *)
Theorem roomName_distinct (now1 now2 : Z) :
  now1 <> now2 -> roomName now1 <> roomName now2.
Proof.
  intros Hne H. apply Hne. unfold roomName in H.
  apply append_cancel_l in H. apply append_cancel_l in H.
  apply toString_injective. exact H.
Qed.

Lemma roomName_distinct_witness :
  roomName 1700000000000 <> roomName 1700000000001.
Proof. apply roomName_distinct. lia. Defined.

(** Files created at different times get different ids, whatever their
    names. *)
Theorem newFile_id_distinct (name1 name2 : string) (now1 now2 : Z) :
  now1 <> now2 -> id (newFile name1 now1) <> id (newFile name2 now2).
Proof.
  intros Hne H. apply Hne. apply toString_injective. exact H.
Qed.

Lemma newFile_id_distinct_witness :
  id (newFile "a.ts" 10) <> id (newFile "a.ts" 11).
Proof. apply newFile_id_distinct. lia. Defined.

(** ** The file list after a run *)

Lemma run_cons_fst s e rest :
  fst (run s (e :: rest)) = fst (run (fst (step s e)) rest).
Proof.
  simpl. destruct (step s e) as [s1 out1]. simpl.
  destruct (run s1 rest) as [s2 out2]. reflexivity.
Qed.

Lemma run_invariant (P : State -> Prop) :
  (forall s e, P s -> P (fst (step s e))) ->
  forall events s, P s -> P (fst (run s events)).
Proof.
  intros Hstep events. induction events as [|e rest IH]; intros s H.
  - exact H.
  - rewrite run_cons_fst. apply IH, Hstep, H.
Qed.

Lemma step_created s e :
  map identityOf (files (fst (step s e))) =
  map identityOf (files s) ++ map identityOf (createdBy e).
Proof.
  destruct e as [p now| |panel| |n| |value|keys|stream|err]; simpl;
    rewrite ?app_nil_r; try reflexivity.
  - destruct p as [fileName|]; simpl; [|rewrite app_nil_r; reflexivity].
    unfold addNewFile. destruct (Js.truthy fileName); simpl.
    + rewrite map_app. reflexivity.
    + rewrite app_nil_r. reflexivity.
  - rewrite saveFile_state. reflexivity.
  - rewrite (proj1 (toggleVideo_frame s)). reflexivity.
  - rewrite selectFile_files. reflexivity.
  - apply editorChange_identities.
  - rewrite (proj1 (mediaGranted_frame stream s)). reflexivity.
Qed.

Lemma run_created events :
  forall s,
    map identityOf (files (fst (run s events))) =
    map identityOf (files s) ++ map identityOf (created events).
Proof.
  induction events as [|e rest IH]; intros s.
  - simpl. rewrite app_nil_r. reflexivity.
  - rewrite run_cons_fst, IH, step_created. unfold created. simpl.
    rewrite map_app, app_assoc. reflexivity.
Qed.

Lemma created_ids events :
  map id (created events) = map Js.toString (creationTimes events).
Proof.
  unfold created, creationTimes.
  induction events as [|e rest IH]; simpl; [reflexivity|].
  rewrite !map_app, IH. f_equal.
  destruct e as [p now| |panel| |n| |value|keys|stream|err]; try reflexivity.
  destruct p as [fileName|]; [|reflexivity].
  simpl. destruct (Js.truthy fileName); reflexivity.
Qed.

(** X5: After any sequence of events the file list consists of the three
    default files followed by one file per successful creation, in the order
    of creation, each with the id, name and language it was created with;
    nothing is reordered, renamed or dropped. *)
Theorem file_list_after_run (events : list Event) :
  map identityOf (files (stateAfter events)) =
    map identityOf (initialFiles ++ created events) /\
  List.length (files (stateAfter events)) =
    (3 + List.length (created events))%nat.
Proof.
  assert (H : map identityOf (files (stateAfter events)) =
              map identityOf (initialFiles ++ created events)).
  { unfold stateAfter. rewrite run_created, map_app. reflexivity. }
  split; [exact H|].
  apply (f_equal (@List.length _)) in H.
  rewrite !length_map, length_app in H. exact H.
Qed.

Lemma ids_after_run events :
  map id (files (stateAfter events)) =
  ["1"; "2"; "3"] ++ map Js.toString (creationTimes events).
Proof.
  rewrite <- created_ids.
  change ["1"; "2"; "3"] with (map id initialFiles).
  rewrite <- map_app. apply identityOf_id.
  unfold stateAfter. rewrite run_created, map_app. reflexivity.
Qed.

(** X6: When the clock never returns the same value at two creations, and never
    a value up to 3, all listed files have different ids. *)
Theorem ids_distinct (events : list Event) :
  NoDup (creationTimes events) ->
  Forall (fun t => 3 < t)%Z (creationTimes events) ->
  NoDup (map id (files (stateAfter events))).
Proof.
  intros Hnd Hlate. rewrite ids_after_run.
  assert (Hfresh : forall k, (0 < k <= 3)%Z ->
            ~ In (Js.toString k) (map Js.toString (creationTimes events))).
  { intros k Hk Hin. apply in_map_iff in Hin. destruct Hin as (t & Ht & Hin).
    apply toString_injective in Ht. subst t.
    rewrite Forall_forall in Hlate. specialize (Hlate k Hin). lia. }
  assert (Hrest : NoDup (map Js.toString (creationTimes events))).
  { clear Hlate Hfresh. induction Hnd as [|t l Hnotin Hnd IH]; simpl;
      constructor; [|exact IH].
    intros Hin. apply in_map_iff in Hin. destruct Hin as (u & Hu & Hin).
    apply toString_injective in Hu. subst u. contradiction. }
  simpl. constructor; [|constructor; [|constructor; [|exact Hrest]]].
  - intros [H|[H|H]]; try discriminate. exact (Hfresh 1%Z ltac:(lia) H).
  - intros [H|H]; try discriminate. exact (Hfresh 2%Z ltac:(lia) H).
  - exact (Hfresh 3%Z ltac:(lia)).
Qed.

Lemma ids_distinct_witness :
  NoDup (map id (files (stateAfter
    [ClickNewFile (Some "a.ts") 10; EditorMount; ClickNewFile (Some "b.md") 11]))).
Proof.
  apply ids_distinct; simpl.
  - repeat constructor; simpl; intuition lia.
  - repeat constructor.
Defined.

(** ** More on the language tag *)






Lemma afterLastDot_app base e :
  afterLastDot e = None ->
  afterLastDot (base ++ String "." e)%string = Some e.
Proof.
  intros He. induction base as [|c base IH]; simpl.
  - rewrite He. reflexivity.
  - rewrite IH. reflexivity.
Qed.

Lemma extensionOf_base_dot base e :
  afterLastDot e = None ->
  extensionOf (base ++ "." ++ e)%string = Js.toLowerCase e.
Proof.
  intros He. rewrite extensionOf_spec. simpl.
  rewrite (afterLastDot_app base e He). reflexivity.
Qed.

(** X1: A name of the form [base.e], where [e] has no dot, is tagged by the
    table entry of [e] lowercased, whatever [base] is (dots included). *)
Theorem language_of_base_dot_extension (base e : string) (now : Z) :
  afterLastDot e = None ->
  extensionOf (base ++ "." ++ e)%string = Js.toLowerCase e /\
  language (newFile (base ++ "." ++ e)%string now) =
    languageOf (Js.toLowerCase e).
Proof.
  intros He. pose proof (extensionOf_base_dot base e He) as H.
  split; [exact H|]. simpl in *. rewrite H. reflexivity.
Qed.

Lemma language_of_base_dot_extension_witness :
  language (newFile "archive.tar.JSON" 5) = "json".
Proof.
  apply (proj2 (language_of_base_dot_extension "archive.tar" "JSON" 5 eq_refl)).
Defined.

Lemma endsWith_unfold suffix s :
  endsWith suffix s =
  String.eqb s suffix ||
  match s with
  | EmptyString => false
  | String _ rest => endsWith suffix rest
  end.
Proof. destruct s; reflexivity. Qed.

Lemma endsWith_app suffix s :
  endsWith suffix s = true -> exists base, s = (base ++ suffix)%string.
Proof.
  induction s as [|c s IH]; rewrite endsWith_unfold; intros H;
    apply orb_true_iff in H; destruct H as [H|H]; try discriminate.
  - apply String.eqb_eq in H. exists EmptyString. exact H.
  - apply String.eqb_eq in H. exists EmptyString. exact H.
  - destruct (IH H) as [base ->]. exists (String c base). reflexivity.
Qed.

Lemma app_endsWith base suffix :
  endsWith suffix (base ++ suffix)%string = true.
Proof.
  induction base as [|c base IH]; cbn [append].
  - rewrite endsWith_unfold, String.eqb_refl. reflexivity.
  - rewrite endsWith_unfold. cbv iota. rewrite IH. apply orb_true_r.
Qed.

(** X3: The two readings of the extension agree in one direction: a file whose
    name the preview accepts as [.html], [.css] or [.js] is, when created
    through the new-file action, tagged [html], [css] or [javascript]. *)
Theorem preview_suffix_gives_language (fileName : string) (now : Z) :
  (endsWith ".html" fileName = true ->
     language (newFile fileName now) = "html") /\
  (endsWith ".css" fileName = true ->
     language (newFile fileName now) = "css") /\
  (endsWith ".js" fileName = true ->
     language (newFile fileName now) = "javascript").
Proof.
  repeat split; intros H; apply endsWith_app in H; destruct H as [base ->];
    cbn [newFile language].
  - exact (f_equal languageOf (extensionOf_base_dot base "html" eq_refl)).
  - exact (f_equal languageOf (extensionOf_base_dot base "css" eq_refl)).
  - exact (f_equal languageOf (extensionOf_base_dot base "js" eq_refl)).
Qed.

Lemma preview_suffix_gives_language_witness :
  language (newFile "lib/app.min.js" 5) = "javascript".
Proof.
  apply (proj2 (proj2 (preview_suffix_gives_language "lib/app.min.js" 5))).
  reflexivity.
Defined.

(** ** The preview *)

Lemma content_or_empty c : (if Js.truthy c then c else EmptyString) = c.
Proof. destruct c; reflexivity. Qed.

Lemma previewSource_cons suffix f fs :
  previewSource suffix (f :: fs) =
  if endsWith suffix (name f) then content f else previewSource suffix fs.
Proof.
  unfold previewSource. simpl.
  destruct (endsWith suffix (name f)); [apply content_or_empty | reflexivity].
Qed.



(** X15: In every state the component can reach, the first three files are still
    [index.html], [styles.css] and [script.js], and the preview is built
    from the content of exactly these three: no file created later is ever
    shown.  Nothing is written unless the preview panel is the one shown and
    the frame gave access to its document. *)
Theorem preview_shows_default_files (events : list Event)
        (contentDocument : bool) :
  exists html css js rest,
    files (stateAfter events) = html :: css :: js :: rest /\
    name html = "index.html" /\ name css = "styles.css" /\
    name js = "script.js" /\
    updatePreview contentDocument (stateAfter events) =
      if Panel_eqb (rightPanel (stateAfter events)) preview && contentDocument
      then Some (previewDocument (content css) (content html) (content js))
      else None.
Proof.
  pose proof (run_created events initialState) as H.
  fold (stateAfter events) in H.
  apply (f_equal (map (fun t => snd (fst t)))) in H.
  rewrite map_app, !map_map in H.
  destruct (files (stateAfter events)) as [|html [|css [|js rest]]] eqn:E;
    try discriminate.
  cbn [map initialFiles app identityOf fst snd name] in H.
  injection H as N0 N1 N2 _.
  exists html, css, js, rest. repeat split; try assumption.
  unfold updatePreview. rewrite E.
  destruct (Panel_eqb _ _ && contentDocument); [|reflexivity].
  cbv zeta. rewrite !previewSource_cons, N0, N1, N2.
  reflexivity.
Qed.

(** ** Which event changes what *)

(** X11: Each piece of state is written by its own events only: the panel by the
    panel buttons, the video flag by the video button, the peer set by
    membership notifications, the active id by file creation and file
    selection, the file list by file creation and content changes, the
    registered callbacks by the editor mount. *)
Theorem step_frame (s : State) (e : Event) :
  (rightPanel (fst (step s e)) <> rightPanel s ->
     exists panel, e = ClickTogglePanel panel) /\
  (videoEnabled (fst (step s e)) <> videoEnabled s -> e = ClickToggleVideo) /\
  (peers (fst (step s e)) <> peers s -> exists keys, e = AwarenessChange keys) /\
  (activeFileId (fst (step s e)) <> activeFileId s ->
     (exists p now, e = ClickNewFile p now) \/ (exists n, e = ClickFile n)) /\
  (files (fst (step s e)) <> files s ->
     (exists p now, e = ClickNewFile p now) \/
     (exists value, e = EditorChange value)) /\
  (listeners (fst (step s e)) <> listeners s -> e = EditorMount).
Proof.
  handler_cases s e; rewrite ?editorChange_files; repeat split; intros H;
    try (exfalso; apply H; reflexivity); try congruence; eauto.
Qed.

Lemma step_frame_witness :
  (exists panel, ClickTogglePanel terminal = ClickTogglePanel panel) /\
  ((exists p now, ClickFile 1 = ClickNewFile p now) \/
   (exists n, ClickFile 1 = ClickFile n)).
Proof.
  split.
  - apply (proj1 (step_frame initialState (ClickTogglePanel terminal))).
    simpl. discriminate.
  - apply (proj1 (proj2 (proj2 (proj2 (step_frame initialState (ClickFile 1)))))).
    simpl. discriminate.
Defined.

Lemma step_rightPanel s e :
  (forall panel, e <> ClickTogglePanel panel) ->
  rightPanel (fst (step s e)) = rightPanel s.
Proof.
  intros He. handler_cases s e; rewrite ?editorChange_files; try reflexivity.
  exfalso. exact (He panel eq_refl).
Qed.

(** X12: The camera and the download are touched by one button each: a media
    request is made exactly when the video button turns video on, and a
    download happens exactly when the save button is pressed while a file
    carries the active id. *)
Theorem effects_by_event (s : State) (e : Event) :
  existsb isMediaRequest (snd (step s e)) =
    match e with
    | ClickToggleVideo => negb (videoEnabled s)
    | _ => false
    end /\
  existsb isDownload (snd (step s e)) =
    match e, activeFile s with
    | ClickSaveFile, Some _ => true
    | _, _ => false
    end.
Proof.
  unfold activeFile.
  destruct e as [[fileName|] now| |panel| |n| |value|keys|stream|err];
    cbn [step snd]; unfold saveFile, toggleVideo, mediaDenied;
    try (destruct (findFile (activeFileId s) (files s)));
    try (destruct (videoEnabled s)); split; reflexivity.
Qed.

(** ** The terminal *)

Lemma Panel_eqb_refl p : Panel_eqb p p = true.
Proof. destruct p; reflexivity. Qed.

Lemma terminalEffect_same p t : terminalEffect p p t = t.
Proof. unfold terminalEffect. rewrite Panel_eqb_refl. reflexivity. Qed.

Lemma screenStep_keeps_terminal_invariant sc e :
  (if Panel_eqb (rightPanel (app sc)) terminal
   then terminalOutput sc <> None else terminalOutput sc = None) ->
  (if Panel_eqb (rightPanel (app (screenStep sc e))) terminal
   then terminalOutput (screenStep sc e) <> None
   else terminalOutput (screenStep sc e) = None).
Proof.
  destruct e as [e|data]; cbn [screenStep app terminalOutput].
  - unfold terminalEffect.
    destruct (rightPanel (app sc)), (rightPanel (fst (step (app sc) e)));
      simpl; intros H; try exact H; try discriminate; reflexivity.
  - destruct (Panel_eqb (rightPanel (app sc)) terminal);
      destruct (terminalOutput sc); simpl; intros H;
      try discriminate; try exact H; congruence.
Qed.

Lemma screenRun_terminal_invariant events :
  forall sc,
    (if Panel_eqb (rightPanel (app sc)) terminal
     then terminalOutput sc <> None else terminalOutput sc = None) ->
    (if Panel_eqb (rightPanel (app (screenRun sc events))) terminal
     then terminalOutput (screenRun sc events) <> None
     else terminalOutput (screenRun sc events) = None).
Proof.
  induction events as [|e rest IH]; intros sc H; [exact H|].
  apply IH, screenStep_keeps_terminal_invariant, H.
Qed.

(** X16: A terminal exists exactly while the terminal panel is the one shown:
    after any sequence of events, there is terminal output if the panel is
    [terminal] and no terminal otherwise. *)
Theorem terminal_exists_iff_shown (events : list ScreenEvent) :
  (rightPanel (app (screenRun initialScreen events)) = terminal ->
     exists written,
       terminalOutput (screenRun initialScreen events) = Some written) /\
  (rightPanel (app (screenRun initialScreen events)) <> terminal ->
     terminalOutput (screenRun initialScreen events) = None).
Proof.
  pose proof (screenRun_terminal_invariant events initialScreen eq_refl) as H.
  destruct (Panel_eqb_spec
              (rightPanel (app (screenRun initialScreen events))) terminal)
    as [E|E].
  - split; [|intros; contradiction]. intros _.
    destruct (terminalOutput _) as [w|]; [eauto | contradiction].
  - split; [intros; contradiction | intros _; exact H].
Qed.

Lemma terminal_exists_iff_shown_witness :
  (exists written,
     terminalOutput (screenRun initialScreen
       [AppEvent (ClickTogglePanel terminal); TerminalData "ls"]) =
     Some written) /\
  terminalOutput (screenRun initialScreen
    [AppEvent (ClickTogglePanel terminal); TerminalData "ls";
     AppEvent (ClickTogglePanel preview)]) = None.
Proof.
  split.
  - apply (proj1 (terminal_exists_iff_shown _)). reflexivity.
  - apply (proj2 (terminal_exists_iff_shown _)). simpl. discriminate.
Defined.

(** X17: Whenever the terminal panel is opened the terminal starts with the
    greeting alone, and any panel button pressed while it is shown disposes
    it: what was on the terminal before is not kept. *)
Theorem terminal_opens_fresh (sc : Screen) :
  (rightPanel (app sc) <> terminal ->
     terminalOutput (screenStep sc (AppEvent (ClickTogglePanel terminal))) =
       Some welcome) /\
  (rightPanel (app sc) = terminal ->
     forall panel,
       terminalOutput (screenStep sc (AppEvent (ClickTogglePanel panel))) =
         None).
Proof.
  split.
  - intros H. cbn. unfold terminalEffect, togglePanelUpdater.
    destruct (rightPanel (app sc)); try reflexivity. contradiction.
  - intros H panel. cbn. unfold terminalEffect, togglePanelUpdater. rewrite H.
    destruct panel; reflexivity.
Qed.

Lemma terminal_opens_fresh_witness :
  terminalOutput
    (screenRun initialScreen
       [AppEvent (ClickTogglePanel terminal); TerminalData "ls";
        AppEvent (ClickTogglePanel terminal);
        AppEvent (ClickTogglePanel terminal)]) = Some welcome.
Proof.
  apply (proj1 (terminal_opens_fresh
                  (screenRun initialScreen
                     [AppEvent (ClickTogglePanel terminal); TerminalData "ls";
                      AppEvent (ClickTogglePanel terminal)]))).
  simpl. discriminate.
Defined.

Lemma append_assoc (a b c : string) :
  ((a ++ b) ++ c)%string = (a ++ (b ++ c))%string.
Proof. induction a as [|x a IH]; simpl; [reflexivity | rewrite IH; reflexivity]. Qed.

Lemma append_empty_r (a : string) : (a ++ EmptyString)%string = a.
Proof. induction a as [|x a IH]; simpl; [reflexivity | rewrite IH; reflexivity]. Qed.

(** X18: While no panel button is pressed, the terminal shows what it showed
    before followed by exactly the data typed since, in order; every other
    event of the component leaves the terminal alone. *)
Theorem terminal_echoes_typed_data (events : list ScreenEvent) :
  forall (sc : Screen) (written : string),
    forallb (fun e => negb (isPanelToggle e)) events = true ->
    terminalOutput sc = Some written ->
    terminalOutput (screenRun sc events) =
      Some (written ++ typed events)%string.
Proof.
  induction events as [|e rest IH]; intros sc written Hno Hout.
  - simpl. rewrite append_empty_r. exact Hout.
  - simpl in Hno. apply andb_true_iff in Hno. destruct Hno as [He Hrest].
    cbn [screenRun fold_left]. fold (screenRun (screenStep sc e) rest).
    destruct e as [e|data].
    + cbn [typed]. apply IH; [exact Hrest|].
      cbn [screenStep terminalOutput].
      rewrite step_rightPanel, terminalEffect_same; [exact Hout|].
      intros panel ->. discriminate.
    + cbn [typed]. rewrite <- append_assoc. apply IH; [exact Hrest|].
      cbn [screenStep terminalOutput]. rewrite Hout. reflexivity.
Qed.

Lemma terminal_echoes_typed_data_witness :
  terminalOutput
    (screenRun (screenRun initialScreen [AppEvent (ClickTogglePanel terminal)])
       [TerminalData "ls"; AppEvent (ClickFile 1); TerminalData " -l"]) =
  Some (welcome ++ "ls -l")%string.
Proof.
  apply (terminal_echoes_typed_data
           [TerminalData "ls"; AppEvent (ClickFile 1); TerminalData " -l"]
           (screenRun initialScreen [AppEvent (ClickTogglePanel terminal)])
           welcome); reflexivity.
Defined.

(** ** Video *)

Lemma step_keeps_video_invariant s e :
  videoEnabled s = hasVideoElement s ->
  videoEnabled (fst (step s e)) =
    hasVideoElement (fst (step s e)).
Proof.
  unfold hasVideoElement.
  handler_cases s e; rewrite ?editorChange_files; cbn;
    try (destruct (localVideo s)); intros H; try exact H; congruence.
Qed.

(** X13: The [<video>] element exists exactly while video is enabled, in every
    reachable state.  So a stream that is granted while video is enabled is
    attached to the element, and a stream granted after video was switched
    off again is dropped without any change of state. *)
Theorem media_grant_follows_flag (events : list Event) (stream : Z) :
  videoEnabled (stateAfter events) =
    hasVideoElement (stateAfter events) /\
  (videoEnabled (stateAfter events) = true ->
     localVideo (fst (step (stateAfter events) (MediaGranted stream))) =
       Some (Some stream)) /\
  (videoEnabled (stateAfter events) = false ->
     step (stateAfter events) (MediaGranted stream) = (stateAfter events, [])).
Proof.
  assert (H : videoEnabled (stateAfter events) =
              hasVideoElement (stateAfter events)).
  { apply (run_invariant
             (fun s => videoEnabled s = hasVideoElement s));
      [apply step_keeps_video_invariant | reflexivity]. }
  split; [exact H|]. cbn [step fst]. unfold mediaGranted.
  unfold hasVideoElement in H.
  destruct (localVideo (stateAfter events)); rewrite H; split; intros E;
    try discriminate; reflexivity.
Qed.

Lemma media_grant_follows_flag_witness :
  localVideo (fst (step (stateAfter [ClickToggleVideo]) (MediaGranted 7))) =
    Some (Some 7%Z) /\
  step (stateAfter [ClickToggleVideo; ClickToggleVideo]) (MediaGranted 7) =
    (stateAfter [ClickToggleVideo; ClickToggleVideo], []).
Proof.
  split.
  - apply (proj1 (proj2 (media_grant_follows_flag [ClickToggleVideo] 7))).
    reflexivity.
  - apply (proj2 (proj2 (media_grant_follows_flag
                           [ClickToggleVideo; ClickToggleVideo] 7))).
    reflexivity.
Defined.

(** ** Creating, selecting, editing and saving together *)

Lemma findFile_app fid fs gs :
  findFile fid (fs ++ gs) =
  match findFile fid fs with
  | Some f => Some f
  | None => findFile fid gs
  end.
Proof.
  unfold findFile. induction fs as [|f fs IH]; simpl; [reflexivity|].
  destruct (String.eqb (id f) fid); [reflexivity | exact IH].
Qed.

Lemma findFile_map (g : File -> File) fid fs :
  (forall f, id (g f) = id f) ->
  findFile fid (map g fs) = option_map g (findFile fid fs).
Proof.
  intros Hid. unfold findFile. induction fs as [|f fs IH]; simpl; [reflexivity|].
  rewrite Hid. destruct (String.eqb (id f) fid); [reflexivity | exact IH].
Qed.

(** X7: After a file is created under a non-empty name it is the active file,
    and saving downloads it, empty, under that name, provided no listed file
    already has the id made from the clock value.  When one has, the lookup
    by id resolves to that older file, which then is the active one. *)
Theorem created_file_is_active (fileName : string) (now : Z) (s : State) :
  Js.truthy fileName = true ->
  (findFile (Js.toString now) (files s) = None ->
     activeFile (addNewFile (Some fileName) now s) =
       Some (newFile fileName now) /\
     snd (step (addNewFile (Some fileName) now s) ClickSaveFile) =
       [Download fileName EmptyString]) /\
  (forall older, findFile (Js.toString now) (files s) = Some older ->
     activeFile (addNewFile (Some fileName) now s) = Some older).
Proof.
  intros Hname.
  assert (E : activeFile (addNewFile (Some fileName) now s) =
              match findFile (Js.toString now) (files s) with
              | Some f => Some f
              | None => Some (newFile fileName now)
              end).
  { unfold activeFile, addNewFile. rewrite Hname.
    cbn [negb setActiveFileId setFiles files activeFileId].
    rewrite findFile_app. destruct (findFile _ (files s)); [reflexivity|].
    unfold findFile. simpl. rewrite String.eqb_refl. reflexivity. }
  split.
  - intros Hfresh. rewrite Hfresh in E. split; [exact E|].
    cbn [step snd]. unfold saveFile. fold (activeFile (addNewFile (Some fileName) now s)).
    rewrite E. reflexivity.
  - intros older Hold. rewrite Hold in E. exact E.
Qed.

Lemma created_file_is_active_witness :
  activeFile (addNewFile (Some "notes.md") 1700000000000 initialState) =
    Some (mkFile "1700000000000" "notes.md" "markdown" EmptyString) /\
  activeFile (addNewFile (Some "notes.md") 1 initialState) =
    Some (mkFile "1" "index.html" "html" EmptyString).
Proof.
  split.
  - apply (proj1 (created_file_is_active "notes.md" 1700000000000
                    initialState eq_refl)).
    reflexivity.
  - apply (proj2 (created_file_is_active "notes.md" 1 initialState eq_refl)).
    reflexivity.
Defined.

(** X8: Clicking the button of a listed file makes the lookup by id resolve to
    a file with that file's id: the first such file in the list, which is
    the clicked file itself when ids are distinct.  The rest of the state is
    untouched. *)
Theorem selectFile_activates (n : nat) (s : State) (f : File) :
  nth_error (files s) n = Some f ->
  activeFileId (selectFile n s) = id f /\
  files (selectFile n s) = files s /\
  (exists g, activeFile (selectFile n s) = Some g /\ id g = id f /\
             (NoDup (map id (files s)) -> g = f)).
Proof.
  intros Hn. pose proof (nth_error_In _ _ Hn) as Hin.
  unfold activeFile, selectFile. rewrite Hn. cbn.
  split; [reflexivity|]. split; [reflexivity|].
  destruct (findFile_present (id f) (files s) (in_map id _ _ Hin)) as [g Hg].
  exists g. split; [exact Hg|].
  apply findFile_some in Hg. destruct Hg as [Hgin Hgid].
  split; [exact Hgid|].
  intros Hnd. exact (NoDup_ids_unique (files s) g f Hnd Hgin Hin Hgid).
Qed.

Lemma selectFile_activates_witness :
  activeFileId (selectFile 2 initialState) = "3".
Proof.
  apply (proj1 (selectFile_activates 2 initialState
                  (mkFile "3" "script.js" "javascript" EmptyString) eq_refl)).
Defined.

(** X9: When a registered callback holds the id that is active, a content
    change followed by save downloads the new editor text under the active
    file's name. *)
Theorem save_after_edit (s : State) (f : File) (value : string) :
  In (activeFileId s) (listeners s) ->
  activeFile s = Some f ->
  snd (step (fst (step s (EditorChange value))) ClickSaveFile) =
    [Download (name f) value].
Proof.
  intros Hl Hf. cbn [step fst snd]. rewrite editorChange_files.
  unfold saveFile. cbn [activeFileId files setFiles].
  rewrite findFile_map
    by (intros g; unfold afterChange; destruct (existsb _ _); reflexivity).
  unfold activeFile in Hf. rewrite Hf. cbn [option_map].
  apply findFile_some in Hf. destruct Hf as [_ Hid].
  unfold afterChange.
  assert (E : existsb (String.eqb (id f)) (listeners s) = true).
  { apply existsb_exists. exists (activeFileId s). split; [exact Hl|].
    rewrite Hid. apply String.eqb_refl. }
  rewrite E. reflexivity.
Qed.

Lemma save_after_edit_witness :
  snd (step (fst (step (stateAfter [EditorMount]) (EditorChange "<p>hi</p>")))
            ClickSaveFile) =
  [Download "index.html" "<p>hi</p>"].
Proof.
  apply (save_after_edit (stateAfter [EditorMount])
           (mkFile "1" "index.html" "html" EmptyString)).
  - simpl. auto.
  - reflexivity.
Defined.



(** ** [debounce] *)

Section DebounceFacts.

Variable A : Type.
Variable wait : Z.

Lemma debounce_run_calls (calls : list (Z * A)) (rest : list (Debounce.Ev A)) :
  forall pending last,
    Debounce.run A wait pending
        (map (fun c => Debounce.Call A (fst c) (snd c)) (calls ++ [last]) ++ rest) =
    Debounce.run A wait (Debounce.call A wait (fst last) (snd last) pending)
                 rest.
Proof.
  induction calls as [|c calls IH]; intros pending last; simpl.
  - reflexivity.
  - rewrite IH. reflexivity.
Qed.

(** X19: A burst of calls with no timer run in between, followed by the event
    loop running timers once the wait has passed since the last call, calls
    the function exactly once, with the arguments of the last call; nothing
    stays pending. *)
Theorem debounce_burst (pending : option (Debounce.Timer A)) (earlier : list (Z * A))
        (lastTime : Z) (lastArgs : A) (now : Z) :
  (lastTime + wait <= now)%Z ->
  Debounce.run A wait pending
      (map (fun c => Debounce.Call A (fst c) (snd c)) (earlier ++ [(lastTime, lastArgs)])
       ++ [Debounce.Tick A now]) =
  (None, [(now, lastArgs)]).
Proof.
  intros Hdue. rewrite debounce_run_calls. simpl.
  destruct (Z.leb_spec (lastTime + wait) now); [reflexivity | lia].
Qed.

(** A timer run before the wait has passed since the last call does not
    call the function, and the timer stays pending. *)
Lemma debounce_too_early (pending : option (Debounce.Timer A)) (lastTime : Z)
      (lastArgs : A) (now : Z) :
  (now < lastTime + wait)%Z ->
  Debounce.run A wait pending [Debounce.Call A lastTime lastArgs; Debounce.Tick A now] =
  (Some (Debounce.mkTimer A (lastTime + wait) lastArgs), []).
Proof.
  intros Hearly. simpl.
  destruct (Z.leb_spec (lastTime + wait) now); [lia | reflexivity].
Qed.

Lemma debounce_run_sound (events : list (Debounce.Ev A)) :
  forall pending t a,
    In (t, a) (snd (Debounce.run A wait pending events)) ->
    (exists p, pending = Some p /\ (Debounce.due A p <= t)%Z /\
               Debounce.args A p = a) \/
    (exists t0, In (Debounce.Call A t0 a) events /\ (t0 + wait <= t)%Z).
Proof.
  induction events as [|e rest IH]; intros pending t a Hin; simpl in Hin.
  - destruct Hin.
  - destruct e as [t1 a1|t1].
    + apply IH in Hin. destruct Hin as [(p & Hp & Hdue & Hargs)|(t0 & H0 & Hle)].
      * right. injection Hp as <-. simpl in *. exists t1. subst a.
        split; [left; reflexivity | exact Hdue].
      * right. exists t0. split; [right; exact H0 | exact Hle].
    + destruct (Debounce.tick A t1 pending) as [p1 out1] eqn:Et.
      destruct (Debounce.run A wait p1 rest) as [p2 out2] eqn:Er.
      simpl in Hin. apply in_app_or in Hin. destruct Hin as [Hin|Hin].
      * left. unfold Debounce.tick in Et.
        destruct pending as [p|]; [|injection Et as <- <-; destruct Hin].
        destruct (Z.leb_spec (Debounce.due A p) t1);
          injection Et as <- <-; [|destruct Hin].
        destruct Hin as [Hin|[]]. injection Hin as <- <-.
        exists p. repeat split. assumption.
      * assert (Hin' : In (t, a) (snd (Debounce.run A wait p1 rest))) by (rewrite Er; exact Hin).
        apply IH in Hin'.
        destruct Hin' as [(p & Hp & Hdue & Hargs)|(t0 & H0 & Hle)].
        -- left. unfold Debounce.tick in Et.
           destruct pending as [q|]; [|injection Et as <- <-; discriminate].
           destruct (Z.leb_spec (Debounce.due A q) t1);
             injection Et as <- <-; [discriminate|].
           exists q. injection Hp as <-. repeat split; assumption.
        -- right. exists t0. split; [right; exact H0 | exact Hle].
Qed.

Lemma debounce_run_count (events : list (Debounce.Ev A)) :
  forall pending,
    (List.length (snd (Debounce.run A wait pending events)) <=
     match pending with Some _ => 1 | None => 0 end +
     List.length (filter (Debounce.isCall A) events))%nat.
Proof.
  induction events as [|e rest IH]; intros pending; simpl.
  - lia.
  - destruct e as [t1 a1|t1]; simpl.
    + specialize (IH (Debounce.call A wait t1 a1 pending)). simpl in IH.
      destruct pending; lia.
    + destruct (Debounce.tick A t1 pending) as [p1 out1] eqn:Et.
      specialize (IH p1).
      destruct (Debounce.run A wait p1 rest) as [p2 out2]. simpl in *.
      rewrite length_app. unfold Debounce.tick in Et.
      destruct pending as [p|]; [|injection Et as <- <-; simpl in *; lia].
      destruct (Debounce.due A p <=? t1)%Z; injection Et as <- <-;
        simpl in *; lia.
Qed.

(** X20: Started with no timer pending, the debounced function calls the
    function only with the arguments of some earlier call, never sooner
    than [wait] after that call, and never more often than it was called
    itself. *)
Theorem debounce_never_early (events : list (Debounce.Ev A)) :
  (forall t a, In (t, a) (snd (Debounce.run A wait None events)) ->
     exists t0, In (Debounce.Call A t0 a) events /\ (t0 + wait <= t)%Z) /\
  (List.length (snd (Debounce.run A wait None events)) <=
   List.length (filter (Debounce.isCall A) events))%nat.
Proof.
  split.
  - intros t a Hin. apply debounce_run_sound in Hin.
    destruct Hin as [(p & Hp & _)|H]; [discriminate | exact H].
  - exact (debounce_run_count events None).
Qed.

End DebounceFacts.

Lemma debounce_burst_witness :
  Debounce.run nat 100 None
    [Debounce.Call nat 0 1%nat; Debounce.Call nat 60 2%nat;
     Debounce.Call nat 90 3%nat; Debounce.Tick nat 190] =
  (None, [(190%Z, 3%nat)]).
Proof.
  apply (debounce_burst nat 100 None [(0%Z, 1%nat); (60%Z, 2%nat)] 90 3%nat 190).
  lia.
Defined.

Lemma debounce_never_early_witness :
  exists t0,
    In (Debounce.Call nat t0 2%nat)
       [Debounce.Call nat 0 1%nat; Debounce.Call nat 50 2%nat;
        Debounce.Tick nat 120; Debounce.Tick nat 150] /\
    (t0 + 100 <= 150)%Z.
Proof.
  apply (proj1 (debounce_never_early nat 100
                  [Debounce.Call nat 0 1%nat; Debounce.Call nat 50 2%nat;
                   Debounce.Tick nat 120; Debounce.Tick nat 150])).
  simpl. left. reflexivity.
Defined.
